(** * Theme toggle of static/app.js: embedding and verified properties

    The script is a single immediately invoked function.  It reads
    [localStorage], queries [window.matchMedia], marks [document.body] with
    the class "light" and registers one click listener on the element with
    id "theme-toggle".  The browser objects it touches are modelled as one
    record, the script as a computation in a state-and-exception monad that
    also logs every call made on a browser object. *)

From stdpp Require Import base strings list gmap.

Open Scope string_scope.
Open Scope list_scope.

(** ** Browser state *)

(** A JavaScript exception.  The only one the modelled calls can raise is
    the [TypeError] of calling or dereferencing [undefined] / [null]. *)
Inductive js_error : Type :=
| TypeError (msg : string).

(** Calls made on browser objects, in program order. *)
Inductive event : Type :=
| EvMatchMedia (query : string)
| EvGetItem (k : string)
| EvSetItem (k v : string)
| EvClassAdd (tok : string)
| EvClassToggle (tok : string)
| EvGetElementById (id : string)
| EvAddEventListener (id ty : string).

(** The closures the script creates.  There is one: the arrow function
    passed to [addEventListener] (lines 9-12). *)
Inductive listener : Type :=
| ThemeClick.

Record world : Type := World {
  localStorage : gmap string string;      (* origin-scoped key/value store   *)
  matchMedia : option (string → bool);    (* window.matchMedia, if supported *)
  elements : gset string;                 (* ids present in the document     *)
  classList : list string;                (* document.body.classList         *)
  listeners : list (string * string * listener);
                                          (* (element id, event type, callback) *)
  trace : list event                      (* calls made so far               *)
}.

Definition set_localStorage (m : gmap string string) (w : world) : world :=
  World m (matchMedia w) (elements w) (classList w) (listeners w) (trace w).

Definition set_classList (l : list string) (w : world) : world :=
  World (localStorage w) (matchMedia w) (elements w) l (listeners w) (trace w).

Definition set_listeners (ls : list (string * string * listener)) (w : world) : world :=
  World (localStorage w) (matchMedia w) (elements w) (classList w) ls (trace w).

Definition log (e : event) (w : world) : world :=
  World (localStorage w) (matchMedia w) (elements w) (classList w) (listeners w)
        (trace w ++ [e]).

(** ** The monad of script computations *)

Inductive result (A : Type) : Type :=
| Ok (a : A) (w : world)
| Throw (e : js_error).
Arguments Ok {A} a w.
Arguments Throw {A} e.

Definition js (A : Type) : Type := world → result A.

#[export] Instance js_ret : MRet js := λ A a w, Ok a w.

#[export] Instance js_bind : MBind js := λ A B f m w,
  match m w with
  | Ok a w' => f a w'
  | Throw e => Throw e
  end.

Definition throw {A : Type} (e : js_error) : js A := λ _, Throw e.

(** ** JavaScript operators on the values the script handles *)

(** [ToBoolean] of the result of [getItem]: [null] and the empty string are
    falsy, every other string is truthy. *)
Definition truthy_string (v : option string) : bool :=
  match v with
  | None => false
  | Some s => negb (String.eqb s "")
  end.

(** [ToBoolean] of [prefersLight], which is [undefined] or a boolean. *)
Definition truthy_bool (v : option bool) : bool :=
  match v with
  | None => false
  | Some b => b
  end.

(** [a || b] for [a] the result of [getItem] and [b] a string. *)
Definition js_or (a : option string) (b : string) : string :=
  match a with
  | Some s => if truthy_string a then s else b
  | None => b
  end.

(** ** DOMTokenList: an ordered set of class names *)

Definition contains (tok : string) (l : list string) : bool :=
  existsb (String.eqb tok) l.

Definition token_add (tok : string) (l : list string) : list string :=
  if contains tok l then l else l ++ [tok].

Definition token_remove (tok : string) (l : list string) : list string :=
  List.filter (λ t, negb (String.eqb tok t)) l.

(** ** Browser calls *)

Definition window_matchMedia : js (option (string → bool)) :=
  λ w, Ok (matchMedia w) w.

(** [f(query).matches]; calling [undefined] raises. *)
Definition call_matchMedia (f : option (string → bool)) (query : string) : js bool :=
  match f with
  | None => throw (TypeError "window.matchMedia is not a function")
  | Some m => λ w, Ok (m query) (log (EvMatchMedia query) w)
  end.

Definition localStorage_getItem (k : string) : js (option string) :=
  λ w, Ok (localStorage w !! k) (log (EvGetItem k) w).

Definition localStorage_setItem (k v : string) : js unit :=
  λ w, Ok tt (log (EvSetItem k v) (set_localStorage (<[k:=v]> (localStorage w)) w)).

Definition classList_add (tok : string) : js unit :=
  λ w, Ok tt (log (EvClassAdd tok) (set_classList (token_add tok (classList w)) w)).

(** [classList.toggle(tok)]: removes a present token and returns [false],
    adds an absent one and returns [true]. *)
Definition classList_toggle (tok : string) : js bool :=
  λ w, if contains tok (classList w)
       then Ok false (log (EvClassToggle tok)
                          (set_classList (token_remove tok (classList w)) w))
       else Ok true (log (EvClassToggle tok)
                         (set_classList (classList w ++ [tok]) w)).

(** [document.getElementById(id)]: the element (named by its id) or [null]. *)
Definition getElementById (id : string) : js (option string) :=
  λ w, Ok (if decide (id ∈ elements w) then Some id else None)
          (log (EvGetElementById id) w).

(** [target.addEventListener(ty, cb)]; dereferencing [null] raises. *)
Definition addEventListener (target : option string) (ty : string) (cb : listener)
  : js unit :=
  match target with
  | None => throw (TypeError "Cannot read properties of null")
  | Some id => λ w, Ok tt (log (EvAddEventListener id ty)
                               (set_listeners (listeners w ++ [(id, ty, cb)]) w))
  end.

(** ** The script *)

Module App.

(** Line 2. *)
Definition key : string := "theme".

(** Line 3: [window.matchMedia && window.matchMedia("...").matches].  The
    value is [undefined] (here [None]) when [matchMedia] is unsupported. *)
Definition prefersLight : js (option bool) :=
  mm ← window_matchMedia;
  match mm with
  | None => mret None
  | Some _ =>
      f ← window_matchMedia;
      b ← call_matchMedia f "(prefers-color-scheme: light)";
      mret (Some b)
  end.

(** Lines 3-4: [localStorage.getItem(key) || (prefersLight ? "light" : "dark")]. *)
Definition initial : js string :=
  pl ← prefersLight;
  stored ← localStorage_getItem key;
  mret (js_or stored (if truthy_bool pl then "light" else "dark")).

(** Lines 2-5. *)
Definition initialize : js unit :=
  i ← initial;
  if String.eqb i "light" then classList_add "light" else mret tt.

(** Lines 9-12: the click callback. *)
Definition toggle_handler : js unit :=
  isLight ← classList_toggle "light";
  localStorage_setItem key (if isLight : bool then "light" else "dark").

Definition call (cb : listener) : js unit :=
  match cb with
  | ThemeClick => toggle_handler
  end.

(** Lines 7-12. *)
Definition bindToggle : js unit :=
  btn ← getElementById "theme-toggle";
  match btn with
  | None => mret tt                                  (* if(!btn) return; *)
  | Some _ => addEventListener btn "click" ThemeClick
  end.

(** Lines 1-13: the whole function body. *)
Definition app : js unit :=
  initialize ;; bindToggle.

(** [n] consecutive invocations of the click callback. *)
Fixpoint activations (n : nat) : js unit :=
  match n with
  | O => mret tt
  | S n' => toggle_handler ;; activations n'
  end.

(** The browser dispatching one event of type [ty] at element [id]: the
    callbacks registered for it run in registration order. *)
Fixpoint run_callbacks (cbs : list listener) : js unit :=
  match cbs with
  | [] => mret tt
  | cb :: rest => call cb ;; run_callbacks rest
  end.

Definition registered (id ty : string) (w : world) : list listener :=
  omap (λ r : string * string * listener,
          if String.eqb r.1.1 id && String.eqb r.1.2 ty then Some r.2 else None)
       (listeners w).

Definition dispatch (id ty : string) : js unit :=
  λ w, run_callbacks (registered id ty w) w.

Fixpoint clicks (n : nat) : js unit :=
  match n with
  | O => mret tt
  | S n' => dispatch "theme-toggle" "click" ;; clicks n'
  end.

(** A page load followed by [n] clicks on the toggle element. *)
Definition session (n : nat) : js unit :=
  app ;; clicks n.

End App.

(** ** Observations *)

(** The marker class is on the root container. *)
Definition marked (w : world) : bool := contains "light" (classList w).

(** The persisted preference. *)
Definition persisted (w : world) : option string := localStorage w !! App.key.

(** The operating system's answer to "prefers a light colour scheme":
    [None] when the browser has no [matchMedia]. *)
Definition os_light (w : world) : option bool :=
  match matchMedia w with
  | Some m => Some (m "(prefers-color-scheme: light)")
  | None => None
  end.

(** The toggle element is in the document. *)
Definition has_toggle (w : world) : bool :=
  bool_decide ("theme-toggle" ∈ elements w).

(** The preference string that goes with a marker-class state. *)
Definition theme_of (light : bool) : string :=
  if light then "light" else "dark".

(** Events logged by a computation that took [w] to [w']. *)
Definition emitted (w w' : world) (evs : list event) : Prop :=
  trace w' = trace w ++ evs.

Definition is_read (e : event) : bool :=
  match e with EvGetItem _ => true | _ => false end.

Definition is_write (e : event) : bool :=
  match e with EvSetItem _ _ => true | _ => false end.

Definition is_class_mutation (e : event) : bool :=
  match e with EvClassAdd _ | EvClassToggle _ => true | _ => false end.

Definition is_registration (e : event) : bool :=
  match e with EvAddEventListener _ _ => true | _ => false end.

Definition is_media_query (e : event) : bool :=
  match e with EvMatchMedia _ => true | _ => false end.

(** The media query is evaluated only where [matchMedia] exists. *)
Definition media_events (w : world) : list event :=
  match matchMedia w with
  | Some _ => [EvMatchMedia "(prefers-color-scheme: light)"]
  | None => []
  end.

Definition count_events (p : event → bool) (evs : list event) : nat :=
  length (List.filter p evs).

(** Two worlds that agree on the marker class and on the store. *)
Definition agree (w1 w2 : world) : Prop :=
  marked w1 = marked w2 ∧ localStorage w1 = localStorage w2.

(** The same world with nothing stored under "theme". *)
Definition forget_theme (w : world) : world :=
  set_localStorage (delete App.key (localStorage w)) w.

(** ** The resolution rule, in the specification's words and as refined *)

(** The specification's rule: the stored value if present, else "light" if
    the OS signal indicates light preference, else "dark". *)
Definition initial_spec (stored : option string) (light : option bool) : string :=
  match stored with
  | Some v => v
  | None => theme_of (truthy_bool light)
  end.

(** The same rule with an empty stored string counted as not stored. *)
Definition initial_nonempty (stored : option string) (light : option bool) : string :=
  match stored with
  | Some v => if String.eqb v "" then theme_of (truthy_bool light) else v
  | None => theme_of (truthy_bool light)
  end.

(** The preference the refined rule resolves in world [w]. *)
Definition resolved (w : world) : string :=
  initial_nonempty (persisted w) (os_light w).

(** ** Example worlds *)

(** First visit: nothing stored, light preferred, toggle in the page. *)
Definition w_first_visit : world :=
  World ∅ (Some (λ _, true)) {["theme-toggle"]} [] [] [].

(** An empty string stored under "theme", light preferred. *)
Definition w_blank_pref : world :=
  World {["theme" := ""]} (Some (λ _, true)) {["theme-toggle"]} [] [] [].

(** A returning visitor who chose dark; no [matchMedia]; no toggle element. *)
Definition w_dark_no_toggle : world :=
  World {["theme" := "dark"; "lang" := "en"]} None ∅ ["page"] [] [].

(** "Dark", capitalised, stored under "theme"; light preferred. *)
Definition w_capital_dark : world :=
  World {["theme" := "Dark"]} (Some (λ _, true)) ∅ [] [] [].

(** A first visit to a page whose body carries other classes. *)
Definition w_first_visit_styled : world :=
  set_classList ["page"; "wide"] w_first_visit.

(** A body that carries the marker class in its markup, "dark" stored. *)
Definition w_premarked_dark : world :=
  World {["theme" := "dark"]} None ∅ ["page"; "light"] [] [].

(** A fresh load of the page after the visitor chose light; the OS prefers
    dark. *)
Definition w_reload_light : world :=
  World {["theme" := "light"]} (Some (λ _, false)) {["theme-toggle"]} [] [] [].

(** Nothing stored, dark preferred, the body already carrying the marker
    class. *)
Definition w_premarked_dark_os : world :=
  World ∅ (Some (λ _, false)) ∅ ["light"] [] [].

(** "Dark", capitalised, stored; the body already carrying the marker class. *)
Definition w_premarked_capital : world :=
  World {["theme" := "Dark"]} (Some (λ _, true)) ∅ ["light"] [] [].

(** Two pages with the same (empty) store, no [matchMedia] and no toggle
    element, that differ only in the body's marker class. *)
Definition w_plain : world :=
  World ∅ None ∅ [] [] [].

Definition w_plain_marked : world :=
  World ∅ None ∅ ["light"] [] [].

(** A first visit to a page on which the script has run before: one click
    listener is already on the toggle element. *)
Definition w_first_visit_bound : world :=
  World ∅ (Some (λ _, true)) {["theme-toggle"]} []
        [("theme-toggle", "click", ThemeClick)] [].

(** Nothing stored, dark preferred. *)
Definition w_dark_os : world :=
  World ∅ (Some (λ _, false)) {["theme-toggle"]} ["page"] [] [].

Example first_visit_session2 :
  match App.session 2 w_first_visit with
  | Ok _ w => marked w = true ∧ persisted w = Some "light"
  | Throw _ => False
  end.
Proof. vm_compute. done. Qed.

Example first_visit_session1 :
  match App.session 1 w_first_visit with
  | Ok _ w => marked w = false ∧ persisted w = Some "dark"
  | Throw _ => False
  end.
Proof. vm_compute. done. Qed.

Example dark_no_toggle_load :
  match App.app w_dark_no_toggle with
  | Ok _ w => classList w = ["page"] ∧ listeners w = [] ∧ persisted w = Some "dark"
  | Throw _ => False
  end.
Proof. vm_compute. done. Qed.

(** ** Class-list lemmas *)

Lemma contains_app c l1 l2 :
  contains c (l1 ++ l2) = contains c l1 || contains c l2.
Proof. unfold contains. apply existsb_app. Qed.

Lemma contains_single c t : contains c [t] = String.eqb c t.
Proof. unfold contains. simpl. apply orb_false_r. Qed.

Lemma contains_token_remove c t l :
  contains c (token_remove t l) = contains c l && negb (String.eqb t c).
Proof.
  unfold contains, token_remove.
  induction l as [|x l IH]; simpl; [done|].
  destruct (String.eqb_spec t x) as [->|Hne]; simpl.
  - rewrite IH. destruct (String.eqb_spec c x) as [->|Hcx]; simpl.
    + rewrite String.eqb_refl. simpl. apply andb_false_r.
    + done.
  - rewrite IH. destruct (String.eqb_spec c x) as [->|Hcx]; simpl; [|done].
    destruct (String.eqb_spec t x); [congruence|done].
Qed.

Lemma contains_token_add c t l :
  contains c (token_add t l) = contains c l || String.eqb c t.
Proof.
  unfold token_add. destruct (contains t l) eqn:Ht.
  - destruct (String.eqb_spec c t) as [->|]; [by rewrite Ht | by rewrite orb_false_r].
  - by rewrite contains_app, contains_single.
Qed.

Lemma token_add_idem t l : token_add t (token_add t l) = token_add t l.
Proof.
  unfold token_add at 1.
  by rewrite contains_token_add, String.eqb_refl, orb_true_r.
Qed.

(** ** What each part of the script does to the world *)

Ltac js_unfold :=
  unfold mbind, js_bind, mret, js_ret, throw.

Lemma trace_log2 (t : list event) a b : (t ++ [a]) ++ [b] = t ++ [a; b].
Proof. by rewrite <- app_assoc. Qed.

Lemma prefersLight_run w :
  ∃ w', App.prefersLight w = Ok (os_light w) w' ∧
        localStorage w' = localStorage w ∧ matchMedia w' = matchMedia w ∧
        elements w' = elements w ∧ classList w' = classList w ∧
        listeners w' = listeners w ∧
        trace w' = trace w ++ media_events w.
Proof.
  unfold App.prefersLight, os_light, media_events, window_matchMedia. js_unfold.
  destruct (matchMedia w) as [m|] eqn:Hm; simpl.
  - rewrite Hm. simpl. eexists. split; [reflexivity|]. simpl. by rewrite Hm.
  - eexists. split; [reflexivity|]. by rewrite app_nil_r.
Qed.

Lemma initial_run w :
  ∃ w', App.initial w = Ok (js_or (persisted w) (theme_of (truthy_bool (os_light w)))) w' ∧
        localStorage w' = localStorage w ∧ matchMedia w' = matchMedia w ∧
        elements w' = elements w ∧ classList w' = classList w ∧
        listeners w' = listeners w ∧
        trace w' = trace w ++ media_events w
          ++ [EvGetItem "theme"].
Proof.
  destruct (prefersLight_run w) as (w1 & Hrun & Hs & Hm & He & Hc & Hl & Ht).
  unfold App.initial. js_unfold. rewrite Hrun.
  unfold localStorage_getItem, persisted, App.key, theme_of. simpl.
  rewrite Hs. eexists. split; [reflexivity|]. simpl.
  by rewrite Ht, app_assoc.
Qed.

Lemma js_or_nonempty stored light :
  js_or stored (theme_of (truthy_bool light)) = initial_nonempty stored light.
Proof.
  unfold js_or, initial_nonempty, truthy_string.
  destruct stored as [v|]; [|done]. by destruct (String.eqb v "").
Qed.

Lemma initialize_run w :
  let i := initial_nonempty (persisted w) (os_light w) in
  ∃ w', App.initialize w = Ok tt w' ∧
        localStorage w' = localStorage w ∧ matchMedia w' = matchMedia w ∧
        elements w' = elements w ∧ listeners w' = listeners w ∧
        classList w' =
          (if String.eqb i "light" then token_add "light" (classList w) else classList w) ∧
        trace w' = trace w ++ media_events w
          ++ [EvGetItem "theme"]
          ++ (if String.eqb i "light" then [EvClassAdd "light"] else []).
Proof.
  intros i.
  destruct (initial_run w) as (w1 & Hrun & Hs & Hm & He & Hc & Hl & Ht).
  rewrite js_or_nonempty in Hrun. fold i in Hrun.
  unfold App.initialize. js_unfold. rewrite Hrun.
  destruct (String.eqb i "light"); simpl.
  - eexists. split; [reflexivity|]. simpl. rewrite Hc, Ht.
    repeat split; try done. by rewrite <- !app_assoc.
  - eexists. split; [reflexivity|]. by rewrite Ht.
Qed.

Lemma toggle_handler_run w :
  ∃ w', App.toggle_handler w = Ok tt w' ∧
        localStorage w' = <["theme" := theme_of (negb (marked w))]> (localStorage w) ∧
        matchMedia w' = matchMedia w ∧ elements w' = elements w ∧
        listeners w' = listeners w ∧
        classList w' =
          (if marked w then token_remove "light" (classList w)
           else classList w ++ ["light"]) ∧
        trace w' = trace w ++
          [EvClassToggle "light"; EvSetItem "theme" (theme_of (negb (marked w)))].
Proof.
  unfold App.toggle_handler, classList_toggle, localStorage_setItem, marked, App.key.
  js_unfold.
  destruct (contains "light" (classList w)); simpl;
    (eexists; split; [reflexivity|]); simpl; by rewrite trace_log2.
Qed.

Lemma bindToggle_run w :
  ∃ w', App.bindToggle w = Ok tt w' ∧
        localStorage w' = localStorage w ∧ matchMedia w' = matchMedia w ∧
        elements w' = elements w ∧ classList w' = classList w ∧
        listeners w' = listeners w ++
          (if has_toggle w then [("theme-toggle", "click", ThemeClick)] else []) ∧
        trace w' = trace w ++ [EvGetElementById "theme-toggle"]
          ++ (if has_toggle w then [EvAddEventListener "theme-toggle" "click"] else []).
Proof.
  unfold App.bindToggle, getElementById, addEventListener, has_toggle. js_unfold.
  destruct (decide ("theme-toggle" ∈ elements w)) as [Hin|Hout]; simpl.
  - rewrite bool_decide_eq_true_2 by done.
    eexists. split; [reflexivity|]. simpl. by rewrite trace_log2.
  - rewrite bool_decide_eq_false_2 by done.
    eexists. split; [reflexivity|]. simpl. by rewrite app_nil_r.
Qed.

Lemma app_run w :
  let i := initial_nonempty (persisted w) (os_light w) in
  ∃ w', App.app w = Ok tt w' ∧
        localStorage w' = localStorage w ∧ matchMedia w' = matchMedia w ∧
        elements w' = elements w ∧
        listeners w' = listeners w ++
          (if has_toggle w then [("theme-toggle", "click", ThemeClick)] else []) ∧
        classList w' =
          (if String.eqb i "light" then token_add "light" (classList w) else classList w) ∧
        trace w' = trace w ++ media_events w
          ++ [EvGetItem "theme"]
          ++ (if String.eqb i "light" then [EvClassAdd "light"] else [])
          ++ [EvGetElementById "theme-toggle"]
          ++ (if has_toggle w then [EvAddEventListener "theme-toggle" "click"] else []).
Proof.
  intros i.
  destruct (initialize_run w) as (w1 & Hrun & Hs & Hm & He & Hl & Hc & Ht).
  destruct (bindToggle_run w1) as (w2 & Hrun2 & Hs2 & Hm2 & He2 & Hc2 & Hl2 & Ht2).
  unfold App.app. js_unfold. rewrite Hrun, Hrun2.
  eexists. split; [reflexivity|].
  assert (has_toggle w1 = has_toggle w) as Hht by (unfold has_toggle; by rewrite He).
  rewrite Hht in *. fold i in Hc, Ht.
  repeat split; try congruence.
  rewrite Ht2, Ht. by rewrite <- !app_assoc.
Qed.

(** The marker class after a click callback is the opposite of before. *)
Lemma marked_toggled w w' :
  classList w' =
    (if marked w then token_remove "light" (classList w) else classList w ++ ["light"]) →
  marked w' = negb (marked w).
Proof.
  unfold marked. intros ->.
  destruct (contains "light" (classList w)) eqn:Hc.
  - by rewrite contains_token_remove, Hc.
  - by rewrite contains_app, Hc.
Qed.

(** Other classes are untouched by a click callback. *)
Lemma others_toggled c w w' :
  c ≠ "light" →
  classList w' =
    (if marked w then token_remove "light" (classList w) else classList w ++ ["light"]) →
  contains c (classList w') = contains c (classList w).
Proof.
  intros Hc ->.
  assert (String.eqb "light" c = false) as E1 by (apply String.eqb_neq; congruence).
  assert (String.eqb c "light" = false) as E2 by (by apply String.eqb_neq).
  destruct (marked w).
  - by rewrite contains_token_remove, E1, andb_true_r.
  - by rewrite contains_app, contains_single, E2, orb_false_r.
Qed.

(** One activation: the class flips and the stored value follows it. *)
Lemma toggle_handler_sync w :
  ∃ w', App.toggle_handler w = Ok tt w' ∧
        marked w' = negb (marked w) ∧
        persisted w' = Some (theme_of (marked w')) ∧
        listeners w' = listeners w.
Proof.
  destruct (toggle_handler_run w) as (w' & Hrun & Hs & _ & _ & Hl & Hc & _).
  exists w'. split; [exact Hrun|].
  pose proof (marked_toggled w w' Hc) as Hm.
  split; [exact Hm|]. split; [|exact Hl].
  unfold persisted, App.key. rewrite Hs, Hm. apply lookup_insert_eq.
Qed.

Lemma activations_S n w :
  App.activations (S n) w =
    match App.toggle_handler w with
    | Ok _ w1 => App.activations n w1
    | Throw e => Throw e
    end.
Proof. reflexivity. Qed.

(** After any positive number of activations the stored value mirrors the
    marker class. *)
Lemma activations_succ_sync (n : nat) :
  ∀ w, ∃ w', App.activations (S n) w = Ok tt w' ∧
             persisted w' = Some (theme_of (marked w')).
Proof.
  induction n as [|n IH]; intros w.
  - destruct (toggle_handler_sync w) as (w' & Hrun & _ & Hp & _).
    exists w'. split; [|exact Hp]. by rewrite activations_S, Hrun.
  - destruct (toggle_handler_sync w) as (w1 & Hrun & _).
    destruct (IH w1) as (w' & Hrun' & Hp).
    exists w'. split; [|exact Hp]. by rewrite activations_S, Hrun.
Qed.

(** Two activations in terms of the starting world. *)
Lemma activations_two w :
  ∃ w', App.activations 2 w = Ok tt w' ∧
        marked w' = marked w ∧
        (∀ c, contains c (classList w') = contains c (classList w)) ∧
        localStorage w' = <["theme" := theme_of (marked w)]> (localStorage w).
Proof.
  destruct (toggle_handler_run w) as (w1 & Hrun1 & Hs1 & _ & _ & _ & Hc1 & _).
  destruct (toggle_handler_run w1) as (w2 & Hrun2 & Hs2 & _ & _ & _ & Hc2 & _).
  pose proof (marked_toggled w w1 Hc1) as Hm1.
  pose proof (marked_toggled w1 w2 Hc2) as Hm2.
  exists w2. split.
  { rewrite activations_S, Hrun1, activations_S, Hrun2. reflexivity. }
  assert (marked w2 = marked w) as Hm by (rewrite Hm2, Hm1; apply negb_involutive).
  split; [exact Hm|]. split.
  - intros c. destruct (String.eqb_spec c "light") as [->|Hne].
    + exact Hm.
    + rewrite (others_toggled c w1 w2 Hne Hc2). exact (others_toggled c w w1 Hne Hc1).
  - rewrite Hs2, Hs1, Hm1, negb_involutive. apply insert_insert_eq.
Qed.

Lemma count_events_app p evs1 evs2 :
  count_events p (evs1 ++ evs2) = count_events p evs1 + count_events p evs2.
Proof. unfold count_events. by rewrite List.filter_app, List.length_app. Qed.

(** What [n] activations touch: per activation one class toggle and one
    write to "theme"; no read; nothing else of the world. *)
Lemma activations_frame (n : nat) :
  ∀ w, ∃ w' evs, App.activations n w = Ok tt w' ∧ emitted w w' evs ∧
    count_events is_write evs = n ∧
    count_events is_class_mutation evs = n ∧
    count_events is_read evs = 0 ∧
    length evs = 2 * n ∧
    (∀ k v, EvSetItem k v ∈ evs → k = "theme") ∧
    (∀ k, k ≠ "theme" → localStorage w' !! k = localStorage w !! k) ∧
    (∀ c, c ≠ "light" → contains c (classList w') = contains c (classList w)) ∧
    matchMedia w' = matchMedia w ∧ elements w' = elements w ∧
    listeners w' = listeners w.
Proof.
  induction n as [|n IH]; intros w.
  - exists w, []. simpl. unfold emitted. rewrite app_nil_r.
    repeat split; try done. intros k v H. by apply elem_of_nil in H.
  - destruct (toggle_handler_run w) as (w1 & Hrun & Hs & Hm & He & Hl & Hc & Ht).
    destruct (IH w1)
      as (w' & evs & Hrun' & Ht' & Hw & Hcm & Hr & Hlen & Hk & Hs' & Hc' & Hm' & He' & Hl').
    exists w', ([EvClassToggle "light"; EvSetItem "theme" (theme_of (negb (marked w)))]
                ++ evs).
    split; [by rewrite activations_S, Hrun|].
    split; [unfold emitted in *; by rewrite Ht', Ht, <- app_assoc|].
    rewrite !count_events_app, Hw, Hcm, Hr, List.length_app, Hlen.
    repeat split; try (simpl; lia); try congruence.
    + intros k v H. apply elem_of_app in H as [H|H]; [|by eapply Hk].
      rewrite !elem_of_cons, elem_of_nil in H.
      destruct H as [H|[H|[]]]; [discriminate H | by injection H].
    + intros k Hne. rewrite Hs' by done. rewrite Hs. by apply lookup_insert_ne.
    + intros c Hne. rewrite Hc' by done. by apply (others_toggled c w w1).
Qed.

(** ** Clicks as activations *)

Lemma activations_add (a b : nat) :
  ∀ w, App.activations (a + b) w =
         match App.activations a w with
         | Ok _ w1 => App.activations b w1
         | Throw e => Throw e
         end.
Proof.
  induction a as [|a IH]; intros w; [reflexivity|].
  change (S a + b) with (S (a + b)). rewrite !activations_S.
  destruct (App.toggle_handler w) as [[] w1|e]; [apply IH | reflexivity].
Qed.

(** Every callback is the one closure the script creates. *)
Lemma run_callbacks_activations (cbs : list listener) (w : world) :
  App.run_callbacks cbs w = App.activations (length cbs) w.
Proof.
  revert w. induction cbs as [|[] cbs IH]; intros w; [reflexivity|].
  simpl. js_unfold. destruct (App.toggle_handler w) as [[] w1|e]; [apply IH | reflexivity].
Qed.

Lemma registered_listeners id ty w w' :
  listeners w' = listeners w → App.registered id ty w' = App.registered id ty w.
Proof. unfold App.registered. by intros ->. Qed.

(** [n] clicks run the callback [n] times for each registered listener. *)
Lemma clicks_activations (n : nat) :
  ∀ w, App.clicks n w =
         App.activations (n * length (App.registered "theme-toggle" "click" w)) w.
Proof.
  induction n as [|n IH]; intros w; [reflexivity|].
  set (k := length (App.registered "theme-toggle" "click" w)).
  change (S n * k) with (k + n * k). rewrite activations_add.
  change (App.clicks (S n) w)
    with (match App.dispatch "theme-toggle" "click" w with
          | Ok _ w1 => App.clicks n w1
          | Throw e => Throw e
          end).
  unfold App.dispatch. rewrite run_callbacks_activations. fold k.
  destruct (activations_frame k w) as (w1 & evs & Hrun & _ & _ & _ & _ & _ & _ & _ & _ & _ & _ & Hl).
  rewrite Hrun, IH. by rewrite (registered_listeners _ _ w w1 Hl).
Qed.

(** Loading the page adds one listener for clicks on the toggle element when
    that element exists, none otherwise. *)
Lemma app_registered w w' :
  listeners w' = listeners w ++
    (if has_toggle w then [("theme-toggle", "click", ThemeClick)] else []) →
  length (App.registered "theme-toggle" "click" w')
  = length (App.registered "theme-toggle" "click" w) + (if has_toggle w then 1 else 0).
Proof.
  unfold App.registered. intros ->. rewrite omap_app, List.length_app.
  by destruct (has_toggle w).
Qed.

Lemma activations_agree (n : nat) :
  ∀ w1 w2, agree w1 w2 →
    ∃ w1' w2', App.activations n w1 = Ok tt w1' ∧ App.activations n w2 = Ok tt w2' ∧
               agree w1' w2'.
Proof.
  induction n as [|n IH]; intros w1 w2 Hag.
  - by exists w1, w2.
  - destruct Hag as [Hm Hs].
    destruct (toggle_handler_run w1) as (v1 & Hrun1 & Hs1 & _ & _ & _ & Hc1 & _).
    destruct (toggle_handler_run w2) as (v2 & Hrun2 & Hs2 & _ & _ & _ & Hc2 & _).
    destruct (IH v1 v2) as (w1' & w2' & Hr1 & Hr2 & Hag').
    { split.
      - rewrite (marked_toggled w1 v1 Hc1), (marked_toggled w2 v2 Hc2). by rewrite Hm.
      - by rewrite Hs1, Hs2, Hm, Hs. }
    exists w1', w2'. by rewrite !activations_S, Hrun1, Hrun2.
Qed.

Lemma session_run (n : nat) (w : world) :
  ∃ w0 w', App.app w = Ok tt w0 ∧
    App.activations
      (n * (length (App.registered "theme-toggle" "click" w)
            + (if has_toggle w then 1 else 0))) w0 = Ok tt w' ∧
    App.session n w = Ok tt w'.
Proof.
  destruct (app_run w) as (w0 & Hrun & _ & _ & _ & Hl & _ & _).
  set (k := length (App.registered "theme-toggle" "click" w)
            + (if has_toggle w then 1 else 0)).
  destruct (activations_frame (n * k) w0) as (w' & evs & Hrun' & _).
  exists w0, w'. split; [exact Hrun|]. split; [exact Hrun'|].
  unfold App.session. js_unfold. rewrite Hrun, clicks_activations.
  rewrite (app_registered w w0 Hl). exact Hrun'.
Qed.

(** Reads and writes of a whole session: one read while loading, then one
    write per click and registered listener. *)
Lemma session_frame (n : nat) (w : world) :
  ∃ w' evs, App.session n w = Ok tt w' ∧ emitted w w' evs ∧
    count_events is_read evs = 1 ∧
    count_events is_write evs =
      n * (length (App.registered "theme-toggle" "click" w)
           + (if has_toggle w then 1 else 0)).
Proof.
  destruct (session_run n w) as (w0 & w' & Hrun0 & Hrun1 & Hrun).
  destruct (app_run w) as (w0' & Hrun0' & _ & _ & _ & _ & _ & Ht0).
  rewrite Hrun0 in Hrun0'. injection Hrun0' as <-.
  set (k := length (App.registered "theme-toggle" "click" w)
            + (if has_toggle w then 1 else 0)) in *.
  destruct (activations_frame (n * k) w0) as (w'' & evs & Hrun1' & Ht1 & Hw & _ & Hr & _).
  rewrite Hrun1 in Hrun1'. injection Hrun1' as <-.
  exists w'. eexists. split; [exact Hrun|]. split.
  { unfold emitted in *. rewrite Ht1, Ht0. rewrite <- app_assoc. reflexivity. }
  rewrite !count_events_app, Hw, Hr. unfold media_events.
  destruct (matchMedia w); destruct (String.eqb _ "light"); destruct (has_toggle w);
    split; reflexivity.
Qed.

(** ** The class list as an ordered set *)

Lemma contains_false_not_elem t (l : list string) : contains t l = false → t ∉ l.
Proof.
  unfold contains. intros Hf Hin. apply list_elem_of_In in Hin.
  assert (existsb (String.eqb t) l = true) as Ht.
  { apply existsb_exists. exists t. split; [exact Hin | apply String.eqb_refl]. }
  congruence.
Qed.

Lemma token_remove_app t l1 l2 :
  token_remove t (l1 ++ l2) = token_remove t l1 ++ token_remove t l2.
Proof. unfold token_remove. apply List.filter_app. Qed.

Lemma token_remove_snoc_self t l : token_remove t (l ++ [t]) = token_remove t l.
Proof.
  rewrite token_remove_app. unfold token_remove at 2. simpl.
  by rewrite String.eqb_refl, app_nil_r.
Qed.

Lemma token_remove_idem t l : token_remove t (token_remove t l) = token_remove t l.
Proof.
  unfold token_remove. induction l as [|x l IH]; [done|]. simpl.
  destruct (String.eqb t x) eqn:E; simpl; [exact IH|]. by rewrite E, IH.
Qed.

Lemma token_remove_add t l : token_remove t (token_add t l) = token_remove t l.
Proof.
  unfold token_add. destruct (contains t l); [done | apply token_remove_snoc_self].
Qed.

Lemma NoDup_token_remove t (l : list string) : NoDup l → NoDup (token_remove t l).
Proof.
  unfold token_remove. rewrite !NoDup_ListNoDup. apply List.NoDup_filter.
Qed.

Lemma NoDup_snoc_absent t (l : list string) :
  NoDup l → contains t l = false → NoDup (l ++ [t]).
Proof.
  intros Hl Hc. apply NoDup_app. split; [exact Hl|]. split.
  - intros x Hx Hx'. apply list_elem_of_singleton in Hx' as ->.
    by apply (contains_false_not_elem t l).
  - apply NoDup_singleton.
Qed.

Lemma NoDup_token_add t (l : list string) : NoDup l → NoDup (token_add t l).
Proof.
  intros Hl. unfold token_add. destruct (contains t l) eqn:E; [exact Hl|].
  by apply NoDup_snoc_absent.
Qed.

(** What a click callback does to the class list besides the marker. *)
Lemma toggled_classes l l' :
  l' = (if contains "light" l then token_remove "light" l else l ++ ["light"]) →
  token_remove "light" l' = token_remove "light" l ∧ (NoDup l → NoDup l').
Proof.
  intros ->. destruct (contains "light" l) eqn:E.
  - split; [apply token_remove_idem | apply NoDup_token_remove].
  - split; [apply token_remove_snoc_self | intros; by apply NoDup_snoc_absent].
Qed.

(** [n] activations in closed form. *)
Lemma activations_parity (n : nat) :
  ∀ w, ∃ w', App.activations n w = Ok tt w' ∧
    marked w' = xorb (marked w) (Nat.odd n) ∧
    localStorage w' =
      (match n with
       | O => localStorage w
       | S _ => <["theme" := theme_of (marked w')]> (localStorage w)
       end) ∧
    token_remove "light" (classList w') = token_remove "light" (classList w) ∧
    (NoDup (classList w) → NoDup (classList w')) ∧
    listeners w' = listeners w.
Proof.
  induction n as [|n IH]; intros w.
  - exists w. simpl. by rewrite xorb_false_r.
  - destruct (toggle_handler_run w) as (w1 & Hrun & Hs & _ & _ & Hl & Hc & _).
    pose proof (marked_toggled w w1 Hc) as Hm1.
    destruct (toggled_classes _ _ Hc) as [Hoth1 Hnd1].
    destruct (IH w1) as (w' & Hrun' & Hm & Hs' & Hoth & Hnd & Hl').
    exists w'. split; [by rewrite activations_S, Hrun|].
    assert (marked w' = xorb (marked w) (Nat.odd (S n))) as Hpar.
    { rewrite Hm, Hm1, Nat.odd_succ, <- Nat.negb_odd.
      by destruct (marked w), (Nat.odd n). }
    split; [exact Hpar|]. split.
    { rewrite Hs'. destruct n as [|n'].
      - rewrite Hs. simpl in Hm. rewrite xorb_false_r in Hm. by rewrite Hm, Hm1.
      - rewrite Hs. apply insert_insert_eq. }
    split; [by rewrite Hoth|]. split; [by intros; apply Hnd, Hnd1|]. congruence.
Qed.

(** ** Initialisation *)

(** C1, as stated, fails: with the empty string stored under "theme" and a
    light OS preference, the rule "stored value if present" resolves to the
    empty string (so no marker class), while the script resolves to "light"
    and adds the marker class. *)
Lemma initial_spec_fails_on_blank :
  persisted w_blank_pref = Some "" ∧
  initial_spec (persisted w_blank_pref) (os_light w_blank_pref) = "" ∧
  ¬ (∃ w', App.initial w_blank_pref
           = Ok (initial_spec (persisted w_blank_pref) (os_light w_blank_pref)) w') ∧
  (∃ w', App.initial w_blank_pref = Ok "light" w') ∧
  (∃ w', App.initialize w_blank_pref = Ok tt w' ∧
         marked w_blank_pref = false ∧ marked w' = true ∧
         trace w' = [EvMatchMedia "(prefers-color-scheme: light)";
                     EvGetItem "theme"; EvClassAdd "light"]).
Proof.
  split; [by vm_compute|]. split; [by vm_compute|].
  split; [|split].
  - intros [w' H]. vm_compute in H. discriminate H.
  - eexists. vm_compute. reflexivity.
  - eexists. split; [vm_compute; reflexivity|]. by vm_compute.
Qed.

(** C1, amended: [initialize] resolves the preference to the value stored
    under "theme" if one is stored and it is not the empty string, otherwise
    to "light" if the OS signal is true, otherwise to "dark"; it calls
    [classList.add("light")] on the root container exactly when the resolved
    preference is "light", and changes nothing else of the class list.  In
    particular, with "light" or "dark" stored, the marker class is applied
    iff the stored value is "light". *)
Theorem initialize_resolves_preference (w : world) :
  (∃ w1, App.initial w = Ok (resolved w) w1) ∧
  ∃ w' evs, App.initialize w = Ok tt w' ∧ emitted w w' evs ∧
    (EvClassAdd "light" ∈ evs ↔ resolved w = "light") ∧
    count_events is_class_mutation evs
      = (if String.eqb (resolved w) "light" then 1 else 0) ∧
    classList w' =
      (if String.eqb (resolved w) "light"
       then token_add "light" (classList w) else classList w) ∧
    marked w' = marked w || String.eqb (resolved w) "light" ∧
    (∀ v, persisted w = Some v → v = "light" ∨ v = "dark" →
          resolved w = v ∧ (EvClassAdd "light" ∈ evs ↔ v = "light") ∧
          (marked w = false → (marked w' = true ↔ v = "light"))).
Proof.
  split.
  - destruct (initial_run w) as (w1 & Hrun & _).
    rewrite js_or_nonempty in Hrun. by exists w1.
  - destruct (initialize_run w) as (w' & Hrun & _ & _ & _ & _ & Hc & Ht).
    fold (resolved w) in Hc, Ht.
    exists w'. eexists. split; [done|]. split; [exact Ht|].
    assert (marked w' = marked w || String.eqb (resolved w) "light") as Hmark.
    { unfold marked. rewrite Hc. destruct (String.eqb (resolved w) "light").
      - by rewrite contains_token_add.
      - by rewrite orb_false_r. }
    assert (EvClassAdd "light" ∈
              media_events w ++ [EvGetItem "theme"] ++
              (if String.eqb (resolved w) "light" then [EvClassAdd "light"] else [])
            ↔ resolved w = "light") as Hadd.
    { unfold media_events.
      destruct (String.eqb_spec (resolved w) "light") as [->|Hne];
        destruct (matchMedia w);
        simpl; rewrite ?elem_of_cons, ?elem_of_nil;
        (split; [intros; tauto || (exfalso; intuition discriminate) | intros; tauto]). }
    split; [exact Hadd|]. split.
    { unfold count_events, media_events.
      destruct (String.eqb (resolved w) "light"); destruct (matchMedia w); reflexivity. }
    split; [exact Hc|]. split; [exact Hmark|].
    intros v Hv Hcase.
    assert (resolved w = v) as Hi.
    { unfold resolved, initial_nonempty. rewrite Hv. by destruct Hcase as [->| ->]. }
    split; [exact Hi|]. split; [by rewrite <- Hi|].
    intros Hm. rewrite Hmark, Hm, <- Hi. simpl.
    by destruct (String.eqb_spec (resolved w) "light").
Qed.

(** The rule of C1 at a returning visitor who chose dark. *)
Lemma initialize_resolves_preference_witness :
  ∃ w', App.initialize w_dark_no_toggle = Ok tt w' ∧ marked w' = false.
Proof.
  destruct (initialize_resolves_preference w_dark_no_toggle)
    as (_ & w' & evs & Hrun & _ & _ & _ & _ & _ & Hpart).
  exists w'. split; [exact Hrun|].
  destruct (Hpart "dark") as (_ & _ & Hm); [reflexivity | by right |].
  destruct (marked w') eqn:E; [|reflexivity].
  assert ("dark" = "light") by (apply Hm; reflexivity). discriminate.
Defined.

(** C2, as stated, fails: with nothing stored and a dark OS signal, a root
    container that already carries the marker class keeps it, since
    [initialize] only ever adds; the resulting state is Light, not Dark. *)
Lemma dark_signal_keeps_premarked_body :
  persisted w_premarked_dark_os = None ∧
  os_light w_premarked_dark_os = Some false ∧
  (∃ w', App.initialize w_premarked_dark_os = Ok tt w' ∧ marked w' = true) ∧
  ¬ (∃ w', App.initialize w_premarked_dark_os = Ok tt w' ∧ marked w' = false).
Proof.
  split; [reflexivity|]. split; [reflexivity|]. split.
  - eexists. split; [vm_compute; reflexivity | reflexivity].
  - intros (w' & Hrun & Hm). vm_compute in Hrun. injection Hrun as <-.
    vm_compute in Hm. discriminate Hm.
Qed.

(** C2, amended: with nothing stored under "theme", a light OS signal leaves
    the marker class present; a dark OS signal, or a browser without
    [matchMedia], leaves the class list of the root container as it was, so
    the state is Dark (marker class absent) whenever the root container did
    not carry the marker class before the run. *)
Theorem initialize_without_stored_value (w : world) :
  persisted w = None →
  ∃ w', App.initialize w = Ok tt w' ∧
    (os_light w = Some true → marked w' = true) ∧
    (os_light w = Some false ∨ os_light w = None →
       classList w' = classList w ∧ (marked w = false → marked w' = false)).
Proof.
  intros Hnone.
  destruct (initialize_run w) as (w' & Hrun & _ & _ & _ & _ & Hc & _).
  rewrite Hnone in Hc. simpl in Hc.
  exists w'. split; [exact Hrun|]. split.
  - intros Hl. rewrite Hl in Hc. simpl in Hc.
    unfold marked. rewrite Hc, contains_token_add. apply orb_true_r.
  - intros Hd.
    assert (classList w' = classList w) as Heq
      by (destruct Hd as [Hd|Hd]; rewrite Hd in Hc; exact Hc).
    split; [exact Heq|]. unfold marked. by rewrite Heq.
Qed.

Lemma initialize_without_stored_value_witness :
  persisted w_dark_os = None ∧
  ∃ w', App.initialize w_dark_os = Ok tt w' ∧ marked w' = false.
Proof.
  split; [reflexivity|].
  destruct (initialize_without_stored_value w_dark_os) as (w' & Hrun & _ & Hd);
    [reflexivity|].
  exists w'. split; [exact Hrun|].
  apply Hd; [left|]; reflexivity.
Defined.

(** ** The click callback *)

(** C3: one activation of the click callback, from either state, flips the
    marker class and stores "light" under "theme" if the class is present
    after the flip, "dark" otherwise. *)
Theorem toggle_flips_and_persists (w : world) :
  ∃ w', App.toggle_handler w = Ok tt w' ∧
    marked w' = negb (marked w) ∧
    persisted w' = Some (if marked w' then "light" else "dark") ∧
    emitted w w' [EvClassToggle "light";
                  EvSetItem "theme" (if marked w' then "light" else "dark")].
Proof.
  destruct (toggle_handler_run w) as (w' & Hrun & Hs & _ & _ & _ & Hc & Ht).
  exists w'. split; [exact Hrun|].
  pose proof (marked_toggled w w' Hc) as Hm.
  split; [exact Hm|]. rewrite Hm. split.
  - unfold persisted, App.key. rewrite Hs. apply lookup_insert_eq.
  - exact Ht.
Qed.

(** C4: after every activation of the click callback has returned, however
    many came before it, the value stored under "theme" is "light" exactly
    when the marker class is on the root container (and is "dark"
    otherwise). *)
Theorem persisted_mirrors_class_after_activations (n : nat) (w : world) :
  ∃ w', App.activations (S n) w = Ok tt w' ∧
    (persisted w' = Some "light" ↔ marked w' = true) ∧
    (persisted w' = Some "dark" ↔ marked w' = false) ∧
    persisted w' = Some (if marked w' then "light" else "dark").
Proof.
  destruct (activations_succ_sync n w) as (w' & Hrun & Hp).
  exists w'. split; [exact Hrun|].
  unfold theme_of in Hp. rewrite Hp.
  destruct (marked w'); repeat split; intros; try done.
Qed.

(** C5, as stated, fails: on a first visit the page loads in the Light
    state with nothing stored; two activations later the marker class is
    back, but "light" is stored where there was no value. *)
Lemma round_trip_fails_on_first_visit :
  ∃ w0 w2, App.app w_first_visit = Ok tt w0 ∧
           App.activations 2 w0 = Ok tt w2 ∧
           marked w0 = true ∧ marked w2 = true ∧
           persisted w0 = None ∧ persisted w2 = Some "light" ∧
           persisted w2 ≠ persisted w0.
Proof.
  eexists _, _. split; [vm_compute; reflexivity|].
  split; [vm_compute; reflexivity|].
  repeat split; try (vm_compute; reflexivity).
  vm_compute. discriminate.
Qed.

(** C5, amended: two consecutive activations return the marker class (and
    every other class) to its original state and leave under "theme" the
    string that goes with that state; so the stored value returns to its
    original exactly when the original already was that string, and then the
    whole store is as before. *)
Theorem two_activations_round_trip (w : world) :
  ∃ w', App.activations 2 w = Ok tt w' ∧
    marked w' = marked w ∧
    (∀ c, contains c (classList w') = contains c (classList w)) ∧
    persisted w' = Some (if marked w then "light" else "dark") ∧
    (persisted w' = persisted w
       ↔ persisted w = Some (if marked w then "light" else "dark")) ∧
    (persisted w = Some (if marked w then "light" else "dark")
       → localStorage w' = localStorage w).
Proof.
  destruct (activations_two w) as (w' & Hrun & Hm & Hc & Hs).
  exists w'. split; [exact Hrun|]. split; [exact Hm|]. split; [exact Hc|].
  assert (persisted w' = Some (theme_of (marked w))) as Hp.
  { unfold persisted, App.key. rewrite Hs. apply lookup_insert_eq. }
  unfold theme_of in *. split; [exact Hp|]. split.
  - rewrite Hp. split; intros H; by rewrite H.
  - intros Hsync. rewrite Hs. by apply insert_id.
Qed.

(** The round trip on a store that already holds the matching value. *)
Lemma two_activations_round_trip_witness :
  ∃ w', App.activations 2 w_dark_no_toggle = Ok tt w' ∧
        localStorage w' = localStorage w_dark_no_toggle.
Proof.
  destruct (two_activations_round_trip w_dark_no_toggle)
    as (w' & Hrun & _ & _ & _ & _ & Hstore).
  exists w'. split; [exact Hrun|]. apply Hstore. reflexivity.
Defined.

(** ** Running the initialisation again *)

(** C6: [initialize] leaves the store and the OS signal as they were, and a
    second run in that unchanged environment applies the same class list,
    hence the same marker-class state, as the first run did. *)
Theorem initialize_idempotent (w : world) :
  ∃ w1 w2, App.initialize w = Ok tt w1 ∧ App.initialize w1 = Ok tt w2 ∧
    localStorage w1 = localStorage w ∧ os_light w1 = os_light w ∧
    classList w2 = classList w1 ∧ marked w2 = marked w1.
Proof.
  destruct (initialize_run w) as (w1 & Hrun1 & Hs1 & Hm1 & _ & _ & Hc1 & _).
  destruct (initialize_run w1) as (w2 & Hrun2 & _ & _ & _ & _ & Hc2 & _).
  assert (os_light w1 = os_light w) as Hos by (unfold os_light; by rewrite Hm1).
  assert (persisted w1 = persisted w) as Hp by (unfold persisted; by rewrite Hs1).
  rewrite Hos, Hp in Hc2.
  assert (classList w2 = classList w1) as Hc.
  { rewrite Hc2. destruct (String.eqb _ "light"); [|done].
    rewrite Hc1. apply token_add_idem. }
  exists w1, w2. repeat split; try done. unfold marked. by rewrite Hc.
Qed.

(** ** Pages without the toggle element *)

(** C7: when the document has no element with id "theme-toggle", the script
    returns normally, the class list is the one [initialize] produces, no
    listener is registered, [addEventListener] is never called and the
    store is not touched. *)
Theorem missing_toggle_is_silent (w : world) :
  "theme-toggle" ∉ elements w →
  ∃ w1 w' evs, App.initialize w = Ok tt w1 ∧ App.app w = Ok tt w' ∧
    classList w' = classList w1 ∧
    marked w' = marked w
                || String.eqb (initial_nonempty (persisted w) (os_light w)) "light" ∧
    listeners w' = listeners w ∧
    emitted w w' evs ∧ count_events is_registration evs = 0 ∧
    localStorage w' = localStorage w.
Proof.
  intros Habsent.
  destruct (initialize_run w) as (w1 & Hrun1 & _ & _ & _ & _ & Hc1 & _).
  destruct (app_run w) as (w' & Hrun & Hs & _ & _ & Hl & Hc & Ht).
  assert (has_toggle w = false) as Hno
    by (unfold has_toggle; by apply bool_decide_eq_false_2).
  rewrite Hno in Hl, Ht. rewrite app_nil_r in Hl.
  exists w1, w'. eexists. split; [exact Hrun1|]. split; [exact Hrun|].
  split; [by rewrite Hc, Hc1|]. split.
  { unfold marked. rewrite Hc. destruct (String.eqb _ "light").
    - by rewrite contains_token_add.
    - by rewrite orb_false_r. }
  split; [exact Hl|]. split; [exact Ht|]. split; [|exact Hs].
  unfold count_events, media_events.
  destruct (matchMedia w); destruct (String.eqb _ "light"); reflexivity.
Qed.

Lemma missing_toggle_is_silent_witness :
  ("theme-toggle" ∉ elements w_dark_no_toggle) ∧
  ∃ w', App.app w_dark_no_toggle = Ok tt w' ∧ listeners w' = [].
Proof.
  assert ("theme-toggle" ∉ elements w_dark_no_toggle) as Habsent
    by (simpl; apply not_elem_of_empty).
  split; [exact Habsent|].
  destruct (missing_toggle_is_silent w_dark_no_toggle Habsent)
    as (w1 & w' & evs & _ & Hrun & _ & _ & Hl & _).
  exists w'. split; [exact Hrun | exact Hl].
Defined.

(** ** Storage accesses *)

(** C8: a run of the script (and of [initialize] alone) reads the store
    once, under "theme", and never writes it; [n] activations of the click
    callback perform [n] writes, all under "theme", [n] class mutations and
    no read; a single activation is exactly one [classList.toggle("light")]
    followed by one [setItem("theme", _)]; other keys, other classes, the
    listeners and the rest of the world are left alone.  A page load with
    the toggle element followed by [n] clicks therefore reads once and
    writes [n] times. *)
Theorem storage_read_once_written_per_activation (w : world) :
  (∃ w' evs, App.initialize w = Ok tt w' ∧ emitted w w' evs ∧
     count_events is_read evs = 1 ∧ EvGetItem "theme" ∈ evs ∧
     count_events is_write evs = 0 ∧ localStorage w' = localStorage w) ∧
  (∃ w' evs, App.app w = Ok tt w' ∧ emitted w w' evs ∧
     count_events is_read evs = 1 ∧ EvGetItem "theme" ∈ evs ∧
     count_events is_write evs = 0 ∧ localStorage w' = localStorage w) ∧
  (∃ w' v, App.toggle_handler w = Ok tt w' ∧
     emitted w w' [EvClassToggle "light"; EvSetItem "theme" v] ∧
     localStorage w' = <["theme" := v]> (localStorage w)) ∧
  (∀ n, ∃ w' evs, App.activations n w = Ok tt w' ∧ emitted w w' evs ∧
     count_events is_write evs = n ∧
     count_events is_class_mutation evs = n ∧
     count_events is_read evs = 0 ∧
     length evs = 2 * n ∧
     (∀ k v, EvSetItem k v ∈ evs → k = "theme") ∧
     (∀ k, k ≠ "theme" → localStorage w' !! k = localStorage w !! k) ∧
     (∀ c, c ≠ "light" → contains c (classList w') = contains c (classList w)) ∧
     matchMedia w' = matchMedia w ∧ elements w' = elements w ∧
     listeners w' = listeners w) ∧
  (∀ n, has_toggle w = true → App.registered "theme-toggle" "click" w = [] →
     ∃ w' evs, App.session n w = Ok tt w' ∧ emitted w w' evs ∧
       count_events is_read evs = 1 ∧ count_events is_write evs = n).
Proof.
  split; [|split; [|split; [|split]]].
  - destruct (initialize_run w) as (w' & Hrun & Hs & _ & _ & _ & _ & Ht).
    exists w'. eexists. split; [exact Hrun|]. split; [exact Ht|].
    unfold media_events.
    destruct (matchMedia w); destruct (String.eqb _ "light"); simpl;
      (split; [reflexivity|]); (split; [|by split]);
      rewrite !elem_of_cons; tauto.
  - destruct (app_run w) as (w' & Hrun & Hs & _ & _ & _ & _ & Ht).
    exists w'. eexists. split; [exact Hrun|]. split; [exact Ht|].
    unfold media_events.
    destruct (matchMedia w); destruct (String.eqb _ "light"); destruct (has_toggle w);
      simpl; (split; [reflexivity|]); (split; [|by split]);
      rewrite !elem_of_cons; tauto.
  - destruct (toggle_handler_run w) as (w' & Hrun & Hs & _ & _ & _ & _ & Ht).
    exists w', (theme_of (negb (marked w))). by repeat split.
  - intros n. apply activations_frame.
  - intros n Hbtn Hfresh.
    destruct (session_frame n w) as (w' & evs & Hrun & Ht & Hr & Hw).
    exists w', evs. rewrite Hbtn, Hfresh in Hw. simpl in Hw.
    repeat split; try done. lia.
Qed.

(** A first visit followed by three clicks: one read, three writes. *)
Lemma storage_read_once_written_per_activation_witness :
  ∃ w' evs, App.session 3 w_first_visit = Ok tt w' ∧ emitted w_first_visit w' evs ∧
    count_events is_read evs = 1 ∧ count_events is_write evs = 3.
Proof.
  destruct (storage_read_once_written_per_activation w_first_visit)
    as (_ & _ & _ & _ & Hsession).
  apply Hsession; reflexivity.
Defined.

(** ** Stored values other than "light" and "dark" *)

(** C9, as stated, fails: with "Dark" stored, a root container that already
    carries the marker class keeps it; no class is added, but none is
    removed either, so the marker class is not absent. *)
Lemma unexpected_value_keeps_premarked_body :
  persisted w_premarked_capital = Some "Dark" ∧
  (∃ w', App.initialize w_premarked_capital = Ok tt w' ∧ marked w' = true) ∧
  ¬ (∃ w', App.initialize w_premarked_capital = Ok tt w' ∧ marked w' = false).
Proof.
  split; [reflexivity|]. split.
  - eexists. split; [vm_compute; reflexivity | reflexivity].
  - intros (w' & Hrun & Hm). vm_compute in Hrun. injection Hrun as <-.
    vm_compute in Hm. discriminate Hm.
Qed.

(** C9, amended: an empty string stored under "theme" is resolved as if
    nothing were stored (the OS signal decides); any other stored string
    that is not exactly "light" is itself the resolved preference and adds
    no class: the class list is left as it was, so the marker class is
    absent whenever the root container did not carry it before the run. *)
Theorem initialize_on_unexpected_values (w : world) (v : string) :
  persisted w = Some v →
  ∃ i w1 w', App.initial w = Ok i w1 ∧ App.initialize w = Ok tt w' ∧
    (v = "" →
       i = (if truthy_bool (os_light w) then "light" else "dark") ∧
       ∃ w0 w0', persisted (forget_theme w) = None ∧
                 App.initial (forget_theme w) = Ok i w0 ∧
                 App.initialize (forget_theme w) = Ok tt w0' ∧
                 classList w' = classList w0') ∧
    (v ≠ "" → v ≠ "light" →
       i = v ∧ classList w' = classList w ∧ (marked w = false → marked w' = false)).
Proof.
  intros Hv.
  destruct (initial_run w) as (w1 & Hrun1 & _).
  destruct (initialize_run w) as (w' & Hrun & _ & _ & _ & _ & Hc & _).
  rewrite js_or_nonempty in Hrun1. rewrite Hv in Hrun1, Hc.
  eexists _, w1, w'. split; [exact Hrun1|]. split; [exact Hrun|]. split.
  - intros ->. split; [reflexivity|].
    destruct (initial_run (forget_theme w)) as (w0 & Hrun0 & _).
    destruct (initialize_run (forget_theme w)) as (w0' & Hrun0' & _ & _ & _ & _ & Hc0 & _).
    assert (persisted (forget_theme w) = None) as Hnone
      by (unfold persisted, forget_theme; simpl; apply lookup_delete_eq).
    rewrite js_or_nonempty in Hrun0. rewrite Hnone in Hrun0, Hc0.
    exists w0, w0'. split; [exact Hnone|]. split; [exact Hrun0|].
    split; [exact Hrun0'|]. rewrite Hc, Hc0. reflexivity.
  - intros Hne Hnl. simpl in Hc |- *.
    assert (String.eqb v "" = false) as E1 by (by apply String.eqb_neq).
    assert (String.eqb v "light" = false) as E2 by (by apply String.eqb_neq).
    rewrite E1 in Hc |- *. rewrite E2 in Hc.
    split; [reflexivity|]. split; [exact Hc|]. unfold marked. by rewrite Hc.
Qed.

(** The value "Dark" (capitalised) on a page loaded unmarked. *)
Lemma initialize_on_unexpected_values_witness :
  persisted w_capital_dark = Some "Dark" ∧
  ∃ w', App.initialize w_capital_dark = Ok tt w' ∧ marked w' = false.
Proof.
  split; [reflexivity|].
  destruct (initialize_on_unexpected_values w_capital_dark "Dark")
    as (i & w1 & w' & _ & Hrun & _ & Hd); [reflexivity|].
  exists w'. split; [exact Hrun|].
  apply Hd; [discriminate | discriminate | reflexivity].
Defined.

(** ** Determinism in the environment *)

(** C10, as stated, fails: equal stores, OS signals and toggle presence do
    not fix the outcome.  Two pages that differ only in the body's marker
    class end differently after a load and no click; two pages that differ
    only in a click listener already on the toggle element end differently,
    in class and in stored value, after a load and one click. *)
Lemma sessions_differ_on_page_state :
  (localStorage w_plain = localStorage w_plain_marked ∧
   os_light w_plain = os_light w_plain_marked ∧
   has_toggle w_plain = has_toggle w_plain_marked ∧
   ∃ w1' w2', App.session 0 w_plain = Ok tt w1' ∧
              App.session 0 w_plain_marked = Ok tt w2' ∧
              marked w1' = false ∧ marked w2' = true ∧
              marked w1' ≠ marked w2') ∧
  (localStorage w_first_visit = localStorage w_first_visit_bound ∧
   os_light w_first_visit = os_light w_first_visit_bound ∧
   has_toggle w_first_visit = has_toggle w_first_visit_bound ∧
   marked w_first_visit = marked w_first_visit_bound ∧
   ∃ w1' w2', App.session 1 w_first_visit = Ok tt w1' ∧
              App.session 1 w_first_visit_bound = Ok tt w2' ∧
              marked w1' ≠ marked w2' ∧
              persisted w1' = Some "dark" ∧ persisted w2' = Some "light").
Proof.
  split.
  - repeat (split; [reflexivity|]).
    eexists _, _. split; [vm_compute; reflexivity|].
    split; [vm_compute; reflexivity|].
    split; [reflexivity|]. split; [reflexivity|]. vm_compute. discriminate.
  - repeat (split; [reflexivity|]).
    eexists _, _. split; [vm_compute; reflexivity|].
    split; [vm_compute; reflexivity|].
    split; [vm_compute; discriminate|]. split; vm_compute; reflexivity.
Qed.

(** C10, amended: two page loads whose stores, OS signals and toggle-element
    presence are identical, whose root containers carry the marker class
    alike and whose toggle elements have equally many click listeners
    already, each followed by the same number of clicks, both return
    normally and end with the same marker-class state and the same store, in
    particular the same value under "theme". *)
Theorem sessions_agree (n : nat) (w1 w2 : world) :
  localStorage w1 = localStorage w2 →
  os_light w1 = os_light w2 →
  has_toggle w1 = has_toggle w2 →
  marked w1 = marked w2 →
  length (App.registered "theme-toggle" "click" w1)
    = length (App.registered "theme-toggle" "click" w2) →
  ∃ w1' w2', App.session n w1 = Ok tt w1' ∧ App.session n w2 = Ok tt w2' ∧
    marked w1' = marked w2' ∧ persisted w1' = persisted w2' ∧
    localStorage w1' = localStorage w2'.
Proof.
  intros Hs Hos Hbtn Hm Hreg.
  destruct (session_run n w1) as (v1 & w1' & Happ1 & Hact1 & Hrun1).
  destruct (session_run n w2) as (v2 & w2' & Happ2 & Hact2 & Hrun2).
  destruct (app_run w1) as (v1' & Happ1' & Hs1 & _ & _ & _ & Hc1 & _).
  destruct (app_run w2) as (v2' & Happ2' & Hs2 & _ & _ & _ & Hc2 & _).
  rewrite Happ1 in Happ1'. injection Happ1' as <-.
  rewrite Happ2 in Happ2'. injection Happ2' as <-.
  assert (agree v1 v2) as Hag.
  { split; [|by rewrite Hs1, Hs2].
    assert (persisted w1 = persisted w2) as Hp by (unfold persisted; by rewrite Hs).
    rewrite Hp, Hos in Hc1. unfold marked in *. rewrite Hc1, Hc2.
    destruct (String.eqb _ "light"); [|exact Hm].
    by rewrite !contains_token_add, Hm. }
  rewrite Hreg, Hbtn in Hact1.
  destruct (activations_agree
              (n * (length (App.registered "theme-toggle" "click" w2)
                    + (if has_toggle w2 then 1 else 0))) v1 v2 Hag)
    as (u1 & u2 & Hu1 & Hu2 & Hm' & Hs').
  rewrite Hact1 in Hu1. injection Hu1 as <-.
  rewrite Hact2 in Hu2. injection Hu2 as <-.
  exists w1', w2'. split; [exact Hrun1|]. split; [exact Hrun2|].
  split; [exact Hm'|]. split; [|exact Hs']. unfold persisted. by rewrite Hs'.
Qed.

(** Two first visits that differ in classes other than the marker. *)
Lemma sessions_agree_witness :
  ∃ w1' w2', App.session 3 w_first_visit = Ok tt w1' ∧
             App.session 3 w_first_visit_styled = Ok tt w2' ∧
             marked w1' = marked w2' ∧ persisted w1' = persisted w2'.
Proof.
  destruct (sessions_agree 3 w_first_visit w_first_visit_styled)
    as (w1' & w2' & Hr1 & Hr2 & Hm & Hp & _); try reflexivity.
  by exists w1', w2'.
Defined.

(** ** Further properties of the script *)

Lemma initialize_classes w :
  ∃ w', App.initialize w = Ok tt w' ∧
    marked w' = marked w || String.eqb (resolved w) "light" ∧
    token_remove "light" (classList w') = token_remove "light" (classList w) ∧
    (NoDup (classList w) → NoDup (classList w')) ∧
    (∀ c, contains c (classList w) = true → contains c (classList w') = true) ∧
    (marked w = true → classList w' = classList w).
Proof.
  destruct (initialize_run w) as (w' & Hrun & _ & _ & _ & _ & Hc & _).
  fold (resolved w) in Hc. exists w'. split; [exact Hrun|].
  unfold marked. rewrite Hc. destruct (String.eqb (resolved w) "light").
  - rewrite contains_token_add, token_remove_add. repeat split; try done.
    + by apply NoDup_token_add.
    + intros c Hin. by rewrite contains_token_add, Hin.
    + intros Hm. unfold token_add. by rewrite Hm.
  - rewrite orb_false_r. by repeat split.
Qed.

(** A page load and [n] clicks in closed form; [k] is the number of click
    listeners on the toggle element once the script has run. *)
Lemma session_closed (n : nat) (w : world) :
  ∃ w0 w', App.app w = Ok tt w0 ∧ App.session n w = Ok tt w' ∧
    marked w0 = marked w || String.eqb (resolved w) "light" ∧
    localStorage w0 = localStorage w ∧ matchMedia w0 = matchMedia w ∧
    elements w0 = elements w ∧
    length (App.registered "theme-toggle" "click" w0)
      = length (App.registered "theme-toggle" "click" w)
        + (if has_toggle w then 1 else 0) ∧
    App.activations
      (n * (length (App.registered "theme-toggle" "click" w)
            + (if has_toggle w then 1 else 0))) w0 = Ok tt w' ∧
    token_remove "light" (classList w0) = token_remove "light" (classList w) ∧
    (NoDup (classList w) → NoDup (classList w0)).
Proof.
  destruct (session_run n w) as (w0 & w' & Happ & Hact & Hrun).
  destruct (app_run w) as (v0 & Happ' & Hs & Hm & He & Hl & Hc & _).
  rewrite Happ in Happ'. injection Happ' as <-.
  destruct (initialize_classes w) as (v1 & _ & Hmark & Hoth & Hnd & _).
  destruct (initialize_run w) as (v1' & Hrun1 & _ & _ & _ & _ & Hc1 & _).
  assert (classList w0 = classList v1') as Hsame by (by rewrite Hc, Hc1).
  exists w0, w'. split; [exact Happ|]. split; [exact Hrun|].
  fold (resolved w) in Hc. split.
  { unfold marked. rewrite Hc. destruct (String.eqb (resolved w) "light").
    - by rewrite contains_token_add.
    - by rewrite orb_false_r. }
  split; [exact Hs|]. split; [exact Hm|]. split; [exact He|].
  split; [by apply app_registered|]. split; [exact Hact|].
  rewrite Hc. destruct (String.eqb (resolved w) "light").
  - split; [apply token_remove_add | apply NoDup_token_add].
  - by split.
Qed.

(** X1: [initialize] never takes a class off the root container; on a body
    that already carries the marker class it leaves the class list exactly
    as it is, whatever is stored. *)
Theorem initialize_never_unmarks (w : world) :
  ∃ w', App.initialize w = Ok tt w' ∧
    (∀ c, contains c (classList w) = true → contains c (classList w') = true) ∧
    (marked w = true → classList w' = classList w ∧ marked w' = true).
Proof.
  destruct (initialize_classes w) as (w' & Hrun & _ & _ & _ & Hkeep & Hsame).
  exists w'. split; [exact Hrun|]. split; [exact Hkeep|].
  intros Hm. split; [by apply Hsame|]. unfold marked in *. by rewrite (Hsame Hm).
Qed.

Lemma initialize_never_unmarks_witness :
  persisted w_premarked_dark = Some "dark" ∧
  ∃ w', App.initialize w_premarked_dark = Ok tt w' ∧ marked w' = true.
Proof.
  split; [reflexivity|].
  destruct (initialize_never_unmarks w_premarked_dark) as (w' & Hrun & _ & Hm).
  exists w'. split; [exact Hrun|]. apply Hm. reflexivity.
Defined.

(** X2: [initialize] returns normally in every world; where the browser has
    [matchMedia] it evaluates the light-scheme query exactly once, before it
    reads the store and whether or not a preference is stored; where it has
    none, it makes no such call. *)
Theorem media_query_always_evaluated (w : world) :
  ∃ w' rest, App.initialize w = Ok tt w' ∧
    emitted w w' (media_events w ++ EvGetItem "theme" :: rest) ∧
    count_events is_media_query (media_events w ++ EvGetItem "theme" :: rest)
      = (match matchMedia w with Some _ => 1 | None => 0 end) ∧
    (matchMedia w ≠ None →
       media_events w = [EvMatchMedia "(prefers-color-scheme: light)"]) ∧
    count_events is_read rest = 0.
Proof.
  destruct (initialize_run w) as (w' & Hrun & _ & _ & _ & _ & _ & Ht).
  exists w'. eexists. split; [exact Hrun|]. split; [exact Ht|].
  unfold media_events.
  destruct (matchMedia w); destruct (String.eqb _ "light"); by repeat split.
Qed.

(** X3: [n] activations of the click callback leave the marker class as it
    was for even [n] and flipped for odd [n]; for [n > 0] the stored value
    is the string of the final state, for [n = 0] the store is untouched. *)
Theorem activations_closed_form (n : nat) (w : world) :
  ∃ w', App.activations n w = Ok tt w' ∧
    marked w' = xorb (marked w) (Nat.odd n) ∧
    persisted w' =
      (match n with
       | O => persisted w
       | S _ => Some (theme_of (xorb (marked w) (Nat.odd n)))
       end).
Proof.
  destruct (activations_parity n w) as (w' & Hrun & Hm & Hs & _).
  exists w'. split; [exact Hrun|]. split; [exact Hm|].
  unfold persisted, App.key. rewrite Hs. destruct n; [done|].
  rewrite Hm. apply lookup_insert_eq.
Qed.

(** X4: on a freshly loaded page (root container unmarked, toggle element
    present, no click listener on it yet) followed by [n] clicks, the marker
    class is present iff the resolved preference is "light" and [n] is even,
    or it is not "light" and [n] is odd; after at least one click the stored
    value names that state, after none the store is as found. *)
Theorem fresh_session_closed_form (n : nat) (w : world) :
  marked w = false →
  has_toggle w = true →
  App.registered "theme-toggle" "click" w = [] →
  ∃ w', App.session n w = Ok tt w' ∧
    marked w' = xorb (String.eqb (resolved w) "light") (Nat.odd n) ∧
    persisted w' =
      (match n with
       | O => persisted w
       | S _ => Some (theme_of (marked w'))
       end) ∧
    length (App.registered "theme-toggle" "click" w') = 1.
Proof.
  intros Hm Hbtn Hreg.
  destruct (session_closed n w)
    as (w0 & w' & _ & Hrun & Hm0 & Hs0 & _ & _ & Hk & Hact & _).
  rewrite Hreg, Hbtn in Hact, Hk. simpl in Hact, Hk.
  rewrite Nat.mul_1_r in Hact. rewrite Hm in Hm0. simpl in Hm0.
  destruct (activations_parity n w0) as (v & Hact' & Hpar & Hs & _ & _ & Hl).
  rewrite Hact in Hact'. injection Hact' as <-.
  exists w'. split; [exact Hrun|]. split; [by rewrite Hpar, Hm0|]. split.
  - unfold persisted, App.key. rewrite Hs. destruct n; [by rewrite Hs0|].
    apply lookup_insert_eq.
  - by rewrite (registered_listeners _ _ w0 w' Hl).
Qed.

Lemma fresh_session_closed_form_witness :
  ∃ w', App.session 3 w_first_visit = Ok tt w' ∧
        marked w' = false ∧ persisted w' = Some "dark".
Proof.
  destruct (fresh_session_closed_form 3 w_first_visit) as (w' & Hrun & Hm & Hp & _);
    try reflexivity.
  exists w'. split; [exact Hrun|]. rewrite Hp, Hm. split; reflexivity.
Defined.

(** X5: the choice survives a reload.  After at least one activation, a new
    load of the page (root container unmarked, the store as the callback
    left it) shows the marker class exactly as it was when the visitor left,
    whatever the OS signal says. *)
Theorem choice_survives_reload (n : nat) (w w' v : world) :
  App.activations (S n) w = Ok tt w' →
  localStorage v = localStorage w' →
  marked v = false →
  ∃ v', App.initialize v = Ok tt v' ∧ marked v' = marked w' ∧
        localStorage v' = localStorage w'.
Proof.
  intros Hact Hstore Hfresh.
  destruct (activations_succ_sync n w) as (u & Hact' & Hp).
  rewrite Hact in Hact'. injection Hact' as <-.
  destruct (initialize_run v) as (v' & Hrun & Hs & _ & _ & _ & _ & _).
  destruct (initialize_classes v) as (v'' & Hrun' & Hm & _).
  rewrite Hrun in Hrun'. injection Hrun' as <-.
  exists v'. split; [exact Hrun|]. split; [|by rewrite Hs].
  assert (persisted v = Some (theme_of (marked w'))) as Hpv
    by (unfold persisted in *; by rewrite Hstore).
  rewrite Hm, Hfresh. unfold resolved, initial_nonempty. rewrite Hpv.
  by destruct (marked w').
Qed.

Lemma choice_survives_reload_witness :
  ∃ w' v', App.activations 1 w_first_visit = Ok tt w' ∧
           App.initialize w_reload_light = Ok tt v' ∧
           marked w' = true ∧ marked v' = true.
Proof.
  destruct (toggle_handler_sync w_first_visit) as (w' & Hrun & Hm & Hp & _).
  assert (App.activations 1 w_first_visit = Ok tt w') as Hact
    by (by rewrite activations_S, Hrun).
  assert (localStorage w_reload_light = localStorage w') as Hstore.
  { vm_compute in Hrun. injection Hrun as <-. reflexivity. }
  destruct (choice_survives_reload 0 w_first_visit w' w_reload_light Hact Hstore)
    as (v' & Hinit & Hmv & _); [reflexivity|].
  exists w', v'. split; [exact Hact|]. split; [exact Hinit|].
  assert (marked w' = true) as Hm' by (rewrite Hm; reflexivity).
  split; [exact Hm' | by rewrite Hmv].
Defined.



(** X7: on a page without the toggle element (and without stale listeners
    for it) clicks run nothing: a page load followed by any number of clicks
    ends in exactly the world the page load alone produces. *)
Theorem clicks_without_toggle_do_nothing (n : nat) (w : world) :
  has_toggle w = false →
  App.registered "theme-toggle" "click" w = [] →
  App.session n w = App.app w.
Proof.
  intros Hbtn Hreg.
  destruct (session_closed n w) as (w0 & w' & Happ & Hrun & _ & _ & _ & _ & _ & Hact & _).
  rewrite Hreg, Hbtn in Hact. simpl in Hact. rewrite Nat.mul_0_r in Hact.
  simpl in Hact. unfold mret, js_ret in Hact. injection Hact as <-.
  by rewrite Hrun, Happ.
Qed.

Lemma clicks_without_toggle_do_nothing_witness :
  App.session 5 w_dark_no_toggle = App.app w_dark_no_toggle.
Proof. apply clicks_without_toggle_do_nothing; reflexivity. Defined.

(** X8: a page load followed by any number of clicks leaves every class of
    the root container other than the marker in place and in order, and a
    class list without repeated names stays without repeated names. *)
Theorem session_keeps_other_classes (n : nat) (w : world) :
  ∃ w', App.session n w = Ok tt w' ∧
    token_remove "light" (classList w') = token_remove "light" (classList w) ∧
    (NoDup (classList w) → NoDup (classList w')).
Proof.
  destruct (session_closed n w)
    as (w0 & w' & _ & Hrun & _ & _ & _ & _ & _ & Hact & Hoth0 & Hnd0).
  destruct (activations_parity
              (n * (length (App.registered "theme-toggle" "click" w)
                    + (if has_toggle w then 1 else 0))) w0)
    as (u & Hact' & _ & _ & Hoth & Hnd & _).
  rewrite Hact in Hact'. injection Hact' as <-.
  exists w'. split; [exact Hrun|]. split; [by rewrite Hoth|].
  intros H. by apply Hnd, Hnd0.
Qed.

Lemma session_keeps_other_classes_witness :
  ∃ w', App.session 3 w_first_visit_styled = Ok tt w' ∧ NoDup (classList w').
Proof.
  destruct (session_keeps_other_classes 3 w_first_visit_styled) as (w' & Hrun & _ & Hnd).
  exists w'. split; [exact Hrun|]. apply Hnd.
  vm_compute. repeat constructor; rewrite ?elem_of_cons, ?elem_of_nil; intuition discriminate.
Defined.
